(** * pdp: registration of the native routine [PartialGBM]

    A shallow embedding of [src/pdp-init.c], the file that registers the
    [.Call] routine of the pdp package with the R runtime, together with
    the properties this development establishes about it.

    The C file has three parts, embedded below in the same order:
    - the [extern] declaration of [PartialGBM];
    - the [static const] array [CallEntries];
    - the loader hook [R_init_pdp], which makes two calls into the host
      runtime and returns nothing. *)

From Stdlib Require Import ZArith.
From stdpp Require Import gmap strings list fin_maps.

Local Open Scope Z_scope.
Local Open Scope string_scope.

(** ** C-level data *)

(** The only C type occurring in the declaration of the routine. *)
Inductive ctype : Type := SEXP.

(** [extern <result> <name>(<params>);] *)
Record extern_decl : Type := ExternDecl {
  decl_name : string;
  decl_result : ctype;
  decl_params : list ctype
}.

(** [DL_FUNC]: an untyped pointer to a function, identified by the linker
    symbol it is the address of. The cast [(DL_FUNC) &f] forgets the
    prototype of [f]; only the symbol remains. *)
Inductive DL_FUNC : Type := FunAddr (sym : string).

#[global] Instance DL_FUNC_eq_dec : EqDecision DL_FUNC.
Proof. solve_decision. Defined.

(** [(DL_FUNC) &d] *)
Definition addr_of (d : extern_decl) : DL_FUNC := FunAddr (decl_name d).

(** [R_CallMethodDef]: [{const char *name; DL_FUNC fun; int numArgs;}].
    A [NULL] pointer is [None]. *)
Record R_CallMethodDef : Type := CallMethodDef {
  name : option string;
  fun_ : option DL_FUNC;
  numArgs : Z
}.

#[global] Instance R_CallMethodDef_eq_dec : EqDecision R_CallMethodDef.
Proof. solve_decision. Defined.

(** The descriptor types of the other three interfaces. The hook never
    builds a table of any of them (it passes [NULL]), so the optional
    argument-type annotations that the [.C] and [.Fortran] descriptors
    may carry in addition are left out. *)
Definition R_CMethodDef : Type := R_CallMethodDef.
Definition R_FortranMethodDef : Type := R_CallMethodDef.
Definition R_ExternalMethodDef : Type := R_CallMethodDef.

(** [DllInfo *]: the opaque handle of a loaded module. *)
Definition DllHandle : Type := N.

(** ** The translation unit *)

(** [extern SEXP PartialGBM(SEXP, SEXP, SEXP, SEXP, SEXP, SEXP, SEXP, SEXP,
    SEXP, SEXP);] *)
Definition PartialGBM : extern_decl :=
  {| decl_name := "PartialGBM";
     decl_result := SEXP;
     decl_params := [SEXP; SEXP; SEXP; SEXP; SEXP; SEXP; SEXP; SEXP; SEXP; SEXP] |}.

(** [static const R_CallMethodDef CallEntries[] = { ... };] *)
Definition CallEntries : list R_CallMethodDef :=
  [ {| name := Some "PartialGBM"; fun_ := Some (addr_of PartialGBM); numArgs := 10 |};
    {| name := None; fun_ := None; numArgs := 0 |} ].

(** ** Calls into the host runtime

    The hook is a sequence of calls to functions that the host declares
    and this file does not define. A program is therefore a tree of host
    calls: each node names the call and its arguments, and continues with
    whatever the host returns. *)

Inductive host_call : Type :=
  | R_registerRoutines
      (dll : DllHandle)
      (croutines : option (list R_CMethodDef))
      (callRoutines : option (list R_CallMethodDef))
      (fortranRoutines : option (list R_FortranMethodDef))
      (externalRoutines : option (list R_ExternalMethodDef))
  | R_useDynamicSymbols (dll : DllHandle) (value : bool).

(** [int R_registerRoutines(...)], [Rboolean R_useDynamicSymbols(...)]. *)
Definition result_of (c : host_call) : Type :=
  match c with
  | R_registerRoutines _ _ _ _ _ => Z
  | R_useDynamicSymbols _ _ => bool
  end.

Inductive prog (A : Type) : Type :=
  | Ret (a : A)
  | Call (c : host_call) (k : result_of c → prog A).
Arguments Ret {A} a.
Arguments Call {A} c k.

Fixpoint prog_bind {A B : Type} (f : A → prog B) (p : prog A) : prog B :=
  match p with
  | Ret a => f a
  | Call c k => Call c (λ r, prog_bind f (k r))
  end.

#[global] Instance prog_ret : MRet prog := @Ret.
#[global] Instance prog_mbind : MBind prog := @prog_bind.

(** A call whose result is handed to the rest of the program. *)
Definition call (c : host_call) : prog (result_of c) := Call c Ret.

(** [void R_init_pdp(DllInfo *dll)]. Both results are discarded, as in the
    C statements [R_registerRoutines(...);] and [R_useDynamicSymbols(...);]. *)
Definition R_init_pdp (dll : DllHandle) : prog unit :=
  call (R_registerRoutines dll None (Some CallEntries) None None) ;;
  call (R_useDynamicSymbols dll false) ;;
  mret tt.

(** ** Running a program against a host

    A host runtime is anything that answers each call and updates its own
    state, and that resolves names on request. The module's memory is not
    part of that state: the table is handed over behind a pointer to
    [const]. *)

(** The four interfaces through which the host calls native code; the
    table arguments of [R_registerRoutines] are one for each, in the
    order [.C], [.Call], [.Fortran], [.External]. *)
Inductive interface : Type := DotC | DotCall | DotFortran | DotExternal.

#[global] Instance interface_eq_dec : EqDecision interface.
Proof. solve_decision. Defined.

Class HostRuntime (H : Type) : Type := {
  host_step : ∀ c : host_call, H → result_of c * H;
  host_lookup : interface → DllHandle → string → H → option DL_FUNC * H
}.

(** What can happen to the module during the life of the process: the
    hook is invoked, and names are looked up. *)
Inductive host_op : Type :=
  | OpLookup (i : interface) (dll : DllHandle) (n : string)
  | OpInit (dll : DllHandle).

Section Run.
Context {H : Type} `{!HostRuntime H}.

(** Result and final host state. *)
Fixpoint run {A : Type} (p : prog A) (h : H) : A * H :=
  match p with
  | Ret a => (a, h)
  | Call c k => let '(r, h') := host_step c h in run (k r) h'
  end.

(** The calls made, oldest first. *)
Fixpoint trace {A : Type} (p : prog A) (h : H) : list host_call :=
  match p with
  | Ret _ => []
  | Call c k => let '(r, h') := host_step c h in c :: trace (k r) h'
  end.

(** The host, after the hook has run on [dll]. *)
Definition load (dll : DllHandle) (h : H) : H := (run (R_init_pdp dll) h).2.

Definition op_step (h : H) (o : host_op) : H :=
  match o with
  | OpLookup i dll n => (host_lookup i dll n h).2
  | OpInit dll => load dll h
  end.

Definition after (ops : list host_op) (h : H) : H := foldl op_step h ops.

(** The calls made to the host while [ops] run, oldest first. *)
Fixpoint calls_during (ops : list host_op) (h : H) : list host_call :=
  match ops with
  | [] => []
  | o :: rest =>
      match o with
      | OpLookup _ _ _ => []
      | OpInit dll => trace (R_init_pdp dll) h
      end ++ calls_during rest (op_step h o)
  end.
End Run.

(** ** The host runtime

    The functions the hook calls, and the dispatch by name that the host
    performs afterwards, are declared in the host's headers and defined
    outside [src/]. They are modelled here from what the specification
    says about them. *)

(** Modelled from the spec: what the host keeps for one loaded module,
    namely the routines installed for each interface (without sentinel),
    whether the fallback search is enabled, and the symbols that the
    fallback search would find in the module by name. *)
Record DllInfo : Type := MkDllInfo {
  CSymbols : list R_CMethodDef;
  CallSymbols : list R_CallMethodDef;
  FortranSymbols : list R_FortranMethodDef;
  ExternalSymbols : list R_ExternalMethodDef;
  useDynamicSymbols : bool;
  exported : list (string * DL_FUNC)
}.

#[global] Instance DllInfo_eq_dec : EqDecision DllInfo.
Proof. solve_decision. Defined.

(** Modelled from the spec: the registration failures of section 7
    (duplicate name, malformed table, host-side rejection) and the
    duplicate registration of section 8. *)
Inductive registration_error : Type :=
  | InvalidHandle
  | MalformedTable
  | DuplicateName
  | DuplicateRegistration.

(** Modelled from the spec: section 8 leaves to the host contract whether
    registering again on an initialised handle is accepted or refused. *)
Inductive dup_policy : Type := Replace | Reject.

(** Modelled from the spec: the state of the host runtime, with the
    modules it has loaded and its own error-reporting path. *)
Record host : Type := MkHost {
  policy : dup_policy;
  dlls : gmap DllHandle DllInfo;
  diagnostics : list (DllHandle * registration_error)
}.

(** Modelled from the spec: a failure is reported by the host. *)
Definition report (dll : DllHandle) (e : registration_error) (h : host) : host :=
  {| policy := policy h; dlls := dlls h;
     diagnostics := diagnostics h ++ [(dll, e)] |}.

(** Modelled from the spec: the host updates what it keeps for a module. *)
Definition set_dll (dll : DllHandle) (info : DllInfo) (h : host) : host :=
  {| policy := policy h; dlls := <[dll := info]> (dlls h);
     diagnostics := diagnostics h |}.

(** Modelled from the spec: a table is read up to its sentinel, the first
    entry with a [NULL] name; an array without one is malformed. *)
Fixpoint scan_table (tbl : list R_CallMethodDef) : option (list R_CallMethodDef) :=
  match tbl with
  | [] => None
  | e :: rest =>
      match name e with
      | None => Some []
      | Some _ => cons e <$> scan_table rest
      end
  end.

(** The names of a list of entries, in order. *)
Definition routine_names (l : list R_CallMethodDef) : list string := omap name l.

(** Modelled from the spec: a table is accepted when it is terminated and
    its names are unique. *)
Definition check_table (tbl : list R_CallMethodDef)
    : registration_error + list R_CallMethodDef :=
  match scan_table tbl with
  | None => inl MalformedTable
  | Some rs =>
      if bool_decide (NoDup (routine_names rs)) then inr rs else inl DuplicateName
  end.

(** Modelled from the spec: a [NULL] table argument installs nothing for
    its interface. *)
Definition install_slot (arg : option (list R_CallMethodDef))
    (old : list R_CallMethodDef) : registration_error + list R_CallMethodDef :=
  match arg with
  | None => inr old
  | Some tbl => check_table tbl
  end.

(** Modelled from the spec: a module is initialised once some routine is
    installed for it. *)
Definition is_registered (info : DllInfo) : bool :=
  bool_decide (CSymbols info ≠ [] ∨ CallSymbols info ≠ [] ∨
               FortranSymbols info ≠ [] ∨ ExternalSymbols info ≠ []).

(** Modelled from the spec: whether the host refuses a registration on an
    initialised handle. *)
Definition rejects_duplicates (p : dup_policy) : bool :=
  match p with Replace => false | Reject => true end.

(** Modelled from the spec: installing associates the handle with the
    tables; a failure changes nothing and is reported by the host. The
    result is 1 on success and 0 otherwise. *)
Definition register_routines (dll : DllHandle)
    (c call_ f e : option (list R_CallMethodDef)) (h : host) : Z * host :=
  match dlls h !! dll with
  | None => (0, report dll InvalidHandle h)
  | Some info =>
      if is_registered info && rejects_duplicates (policy h)
      then (0, report dll DuplicateRegistration h)
      else
        match install_slot c (CSymbols info) with
        | inl err => (0, report dll err h)
        | inr cs =>
        match install_slot call_ (CallSymbols info) with
        | inl err => (0, report dll err h)
        | inr calls =>
        match install_slot f (FortranSymbols info) with
        | inl err => (0, report dll err h)
        | inr fs =>
        match install_slot e (ExternalSymbols info) with
        | inl err => (0, report dll err h)
        | inr es =>
            (1, set_dll dll
                  {| CSymbols := cs; CallSymbols := calls;
                     FortranSymbols := fs; ExternalSymbols := es;
                     useDynamicSymbols := useDynamicSymbols info;
                     exported := exported info |} h)
        end end end end
  end.

(** Modelled from the spec: switching the fallback search on or off; the
    result is the previous setting. *)
Definition use_dynamic_symbols (dll : DllHandle) (value : bool) (h : host)
    : bool * host :=
  match dlls h !! dll with
  | None => (false, report dll InvalidHandle h)
  | Some info =>
      (useDynamicSymbols info,
       set_dll dll
         {| CSymbols := CSymbols info; CallSymbols := CallSymbols info;
            FortranSymbols := FortranSymbols info;
            ExternalSymbols := ExternalSymbols info;
            useDynamicSymbols := value;
            exported := exported info |} h)
  end.

(** Modelled from the spec: the routines installed for an interface. *)
Definition registered_in (i : interface) (info : DllInfo) : list R_CallMethodDef :=
  match i with
  | DotC => CSymbols info
  | DotCall => CallSymbols info
  | DotFortran => FortranSymbols info
  | DotExternal => ExternalSymbols info
  end.

(** Modelled from the spec: lookup by name in a list of entries, first
    match first. *)
Fixpoint find_routine (n : string) (l : list R_CallMethodDef) : option DL_FUNC :=
  match l with
  | [] => None
  | e :: rest =>
      if bool_decide (name e = Some n) then fun_ e else find_routine n rest
  end.

(** Modelled from the spec: the fallback search, by name among the symbols
    of the module. *)
Fixpoint find_exported (n : string) (l : list (string * DL_FUNC)) : option DL_FUNC :=
  match l with
  | [] => None
  | (m, f) :: rest => if bool_decide (m = n) then Some f else find_exported n rest
  end.

(** Modelled from the spec: the host's dispatch path. The installed table
    is consulted first; the fallback search runs only while enabled. *)
Definition dispatch (i : interface) (dll : DllHandle) (n : string) (h : host)
    : option DL_FUNC :=
  match dlls h !! dll with
  | None => None
  | Some info =>
      match find_routine n (registered_in i info) with
      | Some f => Some f
      | None =>
          if useDynamicSymbols info then find_exported n (exported info) else None
      end
  end.

(** Modelled from the spec: the host runtime as a whole. A lookup only
    reads. *)
#[global] Instance host_runtime : HostRuntime host := {|
  host_step c :=
    match c as c0 return host → result_of c0 * host with
    | R_registerRoutines dll c call_ f e => register_routines dll c call_ f e
    | R_useDynamicSymbols dll value => use_dynamic_symbols dll value
    end;
  host_lookup i dll n h := (dispatch i dll n h, h)
|}.

(** A module as the host hands it to the hook: nothing installed yet. *)
Definition unregistered (info : DllInfo) : Prop := is_registered info = false.

(** The change the hook makes to what the host keeps for a module, in
    closed form: the [.Call] table is installed unless the host refuses,
    and the fallback search ends up disabled either way. Lemma
    [load_dlls] below shows that running the hook does exactly this. *)
Definition hook_effect (p : dup_policy) (info : DllInfo) : DllInfo :=
  {| CSymbols := CSymbols info;
     CallSymbols :=
       if is_registered info && rejects_duplicates p then CallSymbols info
       else [ {| name := Some "PartialGBM"; fun_ := Some (addr_of PartialGBM);
                 numArgs := 10 |} ];
     FortranSymbols := FortranSymbols info;
     ExternalSymbols := ExternalSymbols info;
     useDynamicSymbols := false;
     exported := exported info |}.

(** ** Views of a table and of a call *)

(** The null entry [{NULL, NULL, 0}]. *)
Definition null_entry : R_CallMethodDef :=
  {| name := None; fun_ := None; numArgs := 0 |}.

(** The named entries of a table as (name, arity) pairs, in order. *)
Definition declared_surface (tbl : list R_CallMethodDef) : list (string * Z) :=
  omap (λ e, n ← name e; Some (n, numArgs e)) tbl.

(** The arity a table declares for the function at address [f]. *)
Fixpoint registered_arity (f : DL_FUNC) (tbl : list R_CallMethodDef) : option Z :=
  match tbl with
  | [] => None
  | e :: rest =>
      if bool_decide (fun_ e = Some f) then Some (numArgs e)
      else registered_arity f rest
  end.

(** The number of parameters of a declaration. *)
Definition param_count (d : extern_decl) : Z := Z.of_nat (length (decl_params d)).

(** The call hands over [tbl] as its [.Call] table, if it is a registration. *)
Definition passes_table (tbl : list R_CallMethodDef) (c : host_call) : Prop :=
  match c with
  | R_registerRoutines _ _ t _ _ => t = Some tbl
  | R_useDynamicSymbols _ _ => True
  end.

(** The call has [NULL] in its [.C], [.Fortran] and [.External] slots, if
    it is a registration. *)
Definition call_only (c : host_call) : Prop :=
  match c with
  | R_registerRoutines _ cr _ fr er => cr = None ∧ fr = None ∧ er = None
  | R_useDynamicSymbols _ _ => True
  end.

(** ** Sample hosts *)

Definition fresh_dll (syms : list (string * DL_FUNC)) : DllInfo :=
  {| CSymbols := []; CallSymbols := []; FortranSymbols := []; ExternalSymbols := [];
     useDynamicSymbols := true; exported := syms |}.

(** A module whose shared object exports the routine and one more symbol. *)
Definition info0 : DllInfo :=
  fresh_dll [("PartialGBM", addr_of PartialGBM); ("helper", FunAddr "helper")].

(** A host that has just loaded that module under handle 7. *)
Definition host0 (p : dup_policy) : host :=
  {| policy := p; dlls := {[ 7%N := info0 ]}; diagnostics := [] |}.

(** A host runtime that accepts nothing and keeps no state. *)
Definition deaf_runtime : HostRuntime unit := {|
  host_step c :=
    match c as c0 return unit → result_of c0 * unit with
    | R_registerRoutines _ _ _ _ _ => λ u, (0, u)
    | R_useDynamicSymbols _ _ => λ u, (true, u)
    end;
  host_lookup _ _ _ u := (None, u)
|}.

(** ** Observing a host from outside *)

(** The module a call is made on: the first argument of both host
    functions. *)
Definition handle_of (c : host_call) : DllHandle :=
  match c with
  | R_registerRoutines dll _ _ _ _ => dll
  | R_useDynamicSymbols dll _ => dll
  end.

(** What the modelled host keeps for module [d], if it knows [d]. *)
Definition module_view (d : DllHandle) (h : host) : option DllInfo := dlls h !! d.

(** What the modelled host answers to the registration that the hook
    makes on [dll], in state [h]: 1 for success, 0 for failure. *)
Definition registration_answer (dll : DllHandle) (h : host) : Z :=
  (host_step (R_registerRoutines dll None (Some CallEntries) None None) h).1.

(** The modelled host with its answers withheld: it changes state as
    [host_runtime] does and always answers 0 and FALSE. *)
Definition mute_runtime : HostRuntime host := {|
  host_step c :=
    match c as c0 return host → result_of c0 * host with
    | R_registerRoutines dll c call_ f e =>
        λ h, (0, (register_routines dll c call_ f e h).2)
    | R_useDynamicSymbols dll value =>
        λ h, (false, (use_dynamic_symbols dll value h).2)
    end;
  host_lookup i dll n h := (dispatch i dll n h, h)
|}.

(** A host that keeps nothing but the fallback switch of each module, and
    that switches the fallback on whenever routines are registered. *)
Definition switch_runtime : HostRuntime (gmap DllHandle bool) := {|
  host_step c :=
    match c as c0
      return gmap DllHandle bool → result_of c0 * gmap DllHandle bool with
    | R_registerRoutines dll _ _ _ _ => λ m, (1, <[dll := true]> m)
    | R_useDynamicSymbols dll value =>
        λ m, (default true (m !! dll), <[dll := value]> m)
    end;
  host_lookup _ _ _ m := (None, m)
|}.

(** The fallback switch of module [d] in such a host; on by default. *)
Definition fallback_enabled (d : DllHandle) (m : gmap DllHandle bool) : bool :=
  default true (m !! d).

(** A host that has loaded two modules, under handles 7 and 9. *)
Definition host2 : host :=
  {| policy := Replace;
     dlls := <[ 9%N := fresh_dll [("other", FunAddr "other")] ]> {[ 7%N := info0 ]};
     diagnostics := [] |}.

(** * Properties *)

(** ** The hook against an arbitrary host *)

Section AnyHost.
Context {H : Type} `{!HostRuntime H}.

Lemma trace_R_init_pdp (dll : DllHandle) (h : H) :
  trace (R_init_pdp dll) h =
    [ R_registerRoutines dll None (Some CallEntries) None None;
      R_useDynamicSymbols dll false ].
Proof.
  unfold R_init_pdp, call. cbn.
  destruct (host_step _ h) as [r1 h1]. cbn.
  destruct (host_step _ h1) as [r2 h2]. reflexivity.
Qed.

Lemma load_unfold (dll : DllHandle) (h : H) :
  load dll h =
    (host_step (R_useDynamicSymbols dll false)
       (host_step (R_registerRoutines dll None (Some CallEntries) None None) h).2).2.
Proof.
  unfold load, R_init_pdp, call. cbn.
  destruct (host_step _ h) as [r1 h1]. cbn.
  destruct (host_step _ h1) as [r2 h2]. reflexivity.
Qed.

(** A property of every call of the hook is a property of every call
    made during the life of the module. *)
Lemma calls_during_Forall (P : host_call → Prop) :
  (∀ dll (h : H), Forall P (trace (R_init_pdp dll) h)) →
  ∀ ops (h : H), Forall P (calls_during ops h).
Proof.
  intros HP ops. induction ops as [|o ops IH]; intros h; cbn.
  - constructor.
  - apply Forall_app. split; [|apply IH].
    destruct o; [constructor | apply HP].
Qed.
End AnyHost.

(** ** The hook against the modelled host *)

Lemma check_table_CallEntries :
  check_table CallEntries =
    inr [ {| name := Some "PartialGBM"; fun_ := Some (addr_of PartialGBM);
             numArgs := 10 |} ].
Proof. reflexivity. Qed.

Lemma load_dlls (dll : DllHandle) (h : host) :
  dlls (load dll h) =
    match dlls h !! dll with
    | Some info => <[dll := hook_effect (policy h) info]> (dlls h)
    | None => dlls h
    end.
Proof.
  rewrite load_unfold. cbn [host_step host_runtime].
  unfold register_routines.
  destruct (dlls h !! dll) as [info|] eqn:E.
  - unfold hook_effect.
    destruct (is_registered info && rejects_duplicates (policy h)) eqn:R.
    + cbn. unfold use_dynamic_symbols. cbn. rewrite E. reflexivity.
    + cbn [install_slot]. rewrite check_table_CallEntries. cbn.
      unfold use_dynamic_symbols. cbn. rewrite lookup_insert_eq. cbn.
      rewrite insert_insert_eq. reflexivity.
  - cbn. unfold use_dynamic_symbols. cbn. rewrite E. reflexivity.
Qed.

Lemma load_policy (dll : DllHandle) (h : host) : policy (load dll h) = policy h.
Proof.
  rewrite load_unfold. cbn [host_step host_runtime].
  unfold use_dynamic_symbols, register_routines.
  repeat (case_match; cbn in * ); reflexivity.
Qed.

Lemma load_diagnostics (dll : DllHandle) (h : host) (info : DllInfo) :
  dlls h !! dll = Some info →
  diagnostics (load dll h) =
    (diagnostics h ++
       if is_registered info && rejects_duplicates (policy h)
       then [(dll, DuplicateRegistration)] else [])%list.
Proof.
  intros E. rewrite load_unfold. cbn [host_step host_runtime].
  unfold register_routines. rewrite E.
  destruct (is_registered info && rejects_duplicates (policy h)) eqn:R.
  - cbn. unfold use_dynamic_symbols. cbn. rewrite E. reflexivity.
  - cbn [install_slot]. rewrite check_table_CallEntries. cbn.
    unfold use_dynamic_symbols. cbn. rewrite lookup_insert_eq. cbn.
    by rewrite app_nil_r.
Qed.

Lemma is_registered_hook_effect (p : dup_policy) (info : DllInfo) :
  is_registered (hook_effect p info) = true.
Proof.
  unfold hook_effect.
  destruct (is_registered info && rejects_duplicates p) eqn:R; cbn.
  - apply andb_true_iff in R as [R _].
    unfold is_registered in *. apply bool_decide_eq_true in R.
    apply bool_decide_eq_true. exact R.
  - apply bool_decide_eq_true. right; left. discriminate.
Qed.

(** Running the hook again on what it produced changes nothing. *)
Lemma hook_effect_idem (p : dup_policy) (info : DllInfo) :
  hook_effect p (hook_effect p info) = hook_effect p info.
Proof.
  unfold hook_effect at 1. rewrite is_registered_hook_effect.
  unfold hook_effect.
  destruct (is_registered info && rejects_duplicates p) eqn:R; cbn.
  - apply andb_true_iff in R as [_ ->]. reflexivity.
  - destruct (rejects_duplicates p); reflexivity.
Qed.

Lemma unregistered_tables (info : DllInfo) :
  unregistered info →
  CSymbols info = [] ∧ CallSymbols info = [] ∧
  FortranSymbols info = [] ∧ ExternalSymbols info = [].
Proof.
  unfold unregistered, is_registered. intros Hu.
  apply bool_decide_eq_false in Hu.
  repeat split.
  - destruct (CSymbols info); [done|]. exfalso; apply Hu; auto.
  - destruct (CallSymbols info); [done|]. exfalso; apply Hu; auto.
  - destruct (FortranSymbols info); [done|]. exfalso; apply Hu; auto.
  - destruct (ExternalSymbols info); [done|]. exfalso; apply Hu; auto.
Qed.

(** What the host keeps for a module once the hook has run on it stays
    the same whatever happens next. *)
Lemma after_stable (dll : DllHandle) (info : DllInfo) (ops : list host_op) :
  ∀ h : host,
    dlls h !! dll = Some (hook_effect (policy h) info) →
    dlls (after ops h) !! dll = Some (hook_effect (policy h) info) ∧
    policy (after ops h) = policy h.
Proof.
  induction ops as [|o ops IH]; intros h Hh; [done|].
  unfold after in *. cbn [foldl].
  assert (policy (op_step h o) = policy h) as Hp.
  { destruct o; [done | apply load_policy]. }
  rewrite <- Hp. apply IH. rewrite Hp.
  destruct o as [|d]; cbn; [done|].
  rewrite load_dlls.
  destruct (dlls h !! d) as [info'|] eqn:E; [|done].
  destruct (decide (d = dll)) as [->|Hne].
  - rewrite lookup_insert_eq. rewrite Hh in E. injection E as <-.
    by rewrite hook_effect_idem.
  - by rewrite lookup_insert_ne.
Qed.

Lemma load_lookup (dll : DllHandle) (h : host) (info : DllInfo) :
  dlls h !! dll = Some info →
  dlls (load dll h) !! dll = Some (hook_effect (policy h) info).
Proof. intros E. rewrite load_dlls, E. apply lookup_insert_eq. Qed.

(** The module, from the moment it is loaded on. *)
Lemma serving (dll : DllHandle) (h : host) (info : DllInfo) (ops : list host_op) :
  dlls h !! dll = Some info →
  dlls (after ops (load dll h)) !! dll = Some (hook_effect (policy h) info).
Proof.
  intros E.
  pose proof (after_stable dll info ops (load dll h)) as Hs.
  rewrite load_policy in Hs. apply Hs. by apply load_lookup.
Qed.

Lemma hook_effect_unregistered (p : dup_policy) (info : DllInfo) :
  unregistered info →
  hook_effect p info =
    {| CSymbols := [];
       CallSymbols := [ {| name := Some "PartialGBM";
                           fun_ := Some (addr_of PartialGBM); numArgs := 10 |} ];
       FortranSymbols := []; ExternalSymbols := [];
       useDynamicSymbols := false; exported := exported info |}.
Proof.
  intros Hu. destruct (unregistered_tables info Hu) as (Hc & _ & Hf & He).
  unfold hook_effect. rewrite Hu, Hc, Hf, He. reflexivity.
Qed.

Lemma load_diagnostics_unknown (dll : DllHandle) (h : host) :
  dlls h !! dll = None →
  diagnostics (load dll h) =
    (diagnostics h ++ [(dll, InvalidHandle); (dll, InvalidHandle)])%list.
Proof.
  intros E. rewrite load_unfold. cbn [host_step host_runtime].
  unfold register_routines. rewrite E. cbn.
  unfold use_dynamic_symbols. cbn. rewrite E. cbn.
  by rewrite <- app_assoc.
Qed.

Lemma registration_answer_cases (dll : DllHandle) (h : host) :
  registration_answer dll h =
    match dlls h !! dll with
    | None => 0
    | Some info =>
        if is_registered info && rejects_duplicates (policy h) then 0 else 1
    end.
Proof.
  unfold registration_answer. cbn [host_step host_runtime].
  unfold register_routines.
  destruct (dlls h !! dll) as [info|]; [|reflexivity].
  destruct (is_registered info && rejects_duplicates (policy h)); [reflexivity|].
  cbn [install_slot]. by rewrite check_table_CallEntries.
Qed.

(** A registration that fails (the host does not know the handle) is
    visible in the host's diagnostics, not in what the hook returns. *)
Example failure_surfaces_in_host :
  (host_step (R_registerRoutines 3%N None (Some CallEntries) None None)
     (host0 Replace)).1 = 0 ∧
  (run (R_init_pdp 3%N) (host0 Replace)).1 = tt ∧
  (run (R_init_pdp 7%N) (host0 Replace)).1 = tt ∧
  diagnostics (load 3%N (host0 Replace)) = [(3%N, InvalidHandle); (3%N, InvalidHandle)] ∧
  diagnostics (load 7%N (host0 Replace)) = [].
Proof. repeat split. Qed.

(** * The claims *)

(** C1. The exported routine surface is exactly one entry: the table
    names the single routine "PartialGBM", declares 10 arguments for it,
    and names no other routine. *)
Theorem exported_surface :
  declared_surface CallEntries = [("PartialGBM", 10)].
Proof. reflexivity. Qed.

(** C2. The arity the table declares for [PartialGBM] equals the number
    of parameters in the declaration of [PartialGBM]. *)
Theorem registered_arity_matches_declaration :
  registered_arity (addr_of PartialGBM) CallEntries = Some (param_count PartialGBM).
Proof. reflexivity. Qed.

(** C3. Whatever the host and its state, the hook makes exactly two calls
    into it, in this order: it installs the table [CallEntries] for the
    handle it was given, then it disables the fallback symbol search for
    that handle. It makes no other call. *)
Theorem two_effects_in_order (H : Type) (R : HostRuntime H) (dll : DllHandle) (h : H) :
  trace (R_init_pdp dll) h =
    [ R_registerRoutines dll None (Some CallEntries) None None;
      R_useDynamicSymbols dll false ].
Proof. apply trace_R_init_pdp. Qed.

(** C4. Once the hook has run on a freshly loaded module, and whatever
    happens afterwards, looking up a name that is not in the table
    yields nothing, through every interface and whatever symbols the
    fallback search could have found. *)
Theorem unregistered_name_fails
    (h : host) (dll : DllHandle) (info : DllInfo)
    (i : interface) (n : string) (ops : list host_op) :
  dlls h !! dll = Some info →
  unregistered info →
  n ∉ routine_names CallEntries →
  dispatch i dll n (after ops (load dll h)) = None.
Proof.
  intros E Hu Hn. unfold dispatch.
  rewrite (serving dll h info ops E), (hook_effect_unregistered _ _ Hu).
  assert (n ≠ "PartialGBM") as Hne.
  { intros ->. apply Hn. cbn. left. }
  destruct i; cbn; try reflexivity.
  rewrite bool_decide_eq_false_2; [reflexivity|]. congruence.
Qed.

Lemma unregistered_name_fails_witness :
  dlls (host0 Replace) !! 7%N = Some info0 ∧
  unregistered info0 ∧
  ("helper" ∉ routine_names CallEntries) ∧
  dispatch DotCall 7%N "helper" (host0 Replace) = Some (FunAddr "helper") ∧
  dispatch DotCall 7%N "helper" (after [OpInit 7%N] (load 7%N (host0 Replace))) = None.
Proof.
  assert ("helper" ∉ routine_names CallEntries) as Hn.
  { apply (bool_decide_unpack _). exact I. }
  split; [reflexivity|]. split; [reflexivity|]. split; [exact Hn|].
  split; [reflexivity|].
  apply (unregistered_name_fails (host0 Replace) 7%N info0 DotCall "helper" [OpInit 7%N]);
    [reflexivity | reflexivity | exact Hn].
Defined.

(** C5. The table is never mutated. On the side of the module, every
    registration made during the life of the process, under whatever
    host, hands over the same contents, those of [CallEntries]. On the
    side of the host, what it keeps for the module once the hook has run,
    the installed table included, is the same after any sequence of
    lookups and of invocations of the hook, on this or any other handle;
    for a freshly loaded module the installed [.Call] table is the table
    [CallEntries] up to its sentinel. *)
Theorem table_never_changes
    (H : Type) (R : HostRuntime H) (h0 : H)
    (h : host) (dll : DllHandle) (info : DllInfo) (ops : list host_op) :
  dlls h !! dll = Some info →
  Forall (passes_table CallEntries) (calls_during ops h0) ∧
  module_view dll (after ops (load dll h)) = module_view dll (load dll h) ∧
  (unregistered info →
   CallSymbols <$> module_view dll (after ops (load dll h)) = scan_table CallEntries).
Proof.
  intros E. split; [|split].
  - apply calls_during_Forall. intros d h'. rewrite trace_R_init_pdp.
    repeat constructor.
  - unfold module_view.
    by rewrite (serving dll h info ops E), (load_lookup dll h info E).
  - intros Hu. unfold module_view.
    by rewrite (serving dll h info ops E), (hook_effect_unregistered _ _ Hu).
Qed.

Lemma table_never_changes_witness :
  dlls (host0 Reject) !! 7%N = Some info0 ∧
  unregistered info0 ∧
  Forall (passes_table CallEntries)
    (@calls_during unit deaf_runtime
       [OpLookup DotCall 7%N "PartialGBM"; OpInit 7%N; OpInit 3%N] tt) ∧
  module_view 7%N
    (after [OpLookup DotCall 7%N "PartialGBM"; OpInit 7%N; OpInit 3%N]
       (load 7%N (host0 Reject))) =
    module_view 7%N (load 7%N (host0 Reject)) ∧
  CallSymbols <$>
    module_view 7%N
      (after [OpLookup DotCall 7%N "PartialGBM"; OpInit 7%N; OpInit 3%N]
         (load 7%N (host0 Reject))) =
    scan_table CallEntries.
Proof.
  split; [reflexivity|]. split; [reflexivity|].
  destruct (table_never_changes unit deaf_runtime tt (host0 Reject) 7%N info0
              [OpLookup DotCall 7%N "PartialGBM"; OpInit 7%N; OpInit 3%N])
    as (Hcalls & Hview & Htable); [reflexivity|].
  split; [exact Hcalls|]. split; [exact Hview|].
  apply Htable. reflexivity.
Defined.

(** C6. The table is a sequence of named entries followed by the null
    entry, and the names of its entries are pairwise distinct. *)
Theorem table_terminated_names_unique :
  ∃ rs : list R_CallMethodDef,
    CallEntries = (rs ++ [null_entry])%list ∧
    Forall (λ e, is_Some (name e)) rs ∧
    NoDup (routine_names rs).
Proof.
  exists [ {| name := Some "PartialGBM"; fun_ := Some (addr_of PartialGBM);
              numArgs := 10 |} ].
  split; [reflexivity|]. split.
  - repeat constructor. by eexists.
  - cbn. apply NoDup_singleton.
Qed.

(** C7. Invoking the hook a second time on an initialised handle leaves
    every table the host keeps as the first invocation left it; the
    second invocation either changes nothing at all, or the host reports
    a duplicate registration. *)
Theorem reinit_keeps_table (h : host) (dll : DllHandle) (info : DllInfo) :
  dlls h !! dll = Some info →
  let h1 := load dll h in
  let h2 := load dll h1 in
  dlls h2 = dlls h1 ∧
  (h2 = h1 ∨
   diagnostics h2 = (diagnostics h1 ++ [(dll, DuplicateRegistration)])%list).
Proof.
  intros E h1 h2.
  pose proof (load_lookup dll h info E) as E1. fold h1 in E1.
  assert (dlls h2 = dlls h1) as Hd.
  { subst h2. rewrite load_dlls, E1.
    unfold h1 at 1. rewrite load_policy, hook_effect_idem.
    by apply insert_id. }
  split; [exact Hd|].
  pose proof (load_diagnostics dll h1 _ E1) as Hg. fold h2 in Hg.
  pose proof (load_policy dll h1) as Hp. fold h2 in Hp.
  rewrite is_registered_hook_effect in Hg. cbn [andb] in Hg.
  destruct (rejects_duplicates (policy h1)).
  - right. exact Hg.
  - left. rewrite app_nil_r in Hg.
    destruct h2, h1; cbn in *; congruence.
Qed.

Lemma reinit_keeps_table_witness :
  dlls (host0 Reject) !! 7%N = Some info0 ∧
  dlls (load 7%N (load 7%N (host0 Reject))) = dlls (load 7%N (host0 Reject)) ∧
  (load 7%N (load 7%N (host0 Reject)) = load 7%N (host0 Reject) ∨
   diagnostics (load 7%N (load 7%N (host0 Reject))) =
     (diagnostics (load 7%N (host0 Reject)) ++ [(7%N, DuplicateRegistration)])%list).
Proof.
  split; [reflexivity|].
  apply (reinit_keeps_table (host0 Reject) 7%N info0). reflexivity.
Defined.

(** C8. Once the hook has run on a freshly loaded module, every lookup of
    "PartialGBM" through the [.Call] dispatch path yields the address of
    [PartialGBM], whatever happened in between: any two lookups agree. *)
Theorem lookup_deterministic
    (h : host) (dll : DllHandle) (info : DllInfo) (ops1 ops2 : list host_op) :
  dlls h !! dll = Some info →
  unregistered info →
  let r1 := (host_lookup DotCall dll "PartialGBM" (after ops1 (load dll h))).1 in
  let r2 := (host_lookup DotCall dll "PartialGBM" (after ops2 (load dll h))).1 in
  r1 = r2 ∧ r1 = Some (addr_of PartialGBM).
Proof.
  intros E Hu.
  assert (∀ ops, (host_lookup DotCall dll "PartialGBM" (after ops (load dll h))).1
                 = Some (addr_of PartialGBM)) as Hl.
  { intros ops. cbn [host_lookup host_runtime fst]. unfold dispatch.
    by rewrite (serving dll h info ops E), (hook_effect_unregistered _ _ Hu). }
  cbv zeta. by rewrite !Hl.
Qed.

Lemma lookup_deterministic_witness :
  dlls (host0 Reject) !! 7%N = Some info0 ∧
  unregistered info0 ∧
  (host_lookup DotCall 7%N "PartialGBM" (after [] (load 7%N (host0 Reject)))).1 =
    (host_lookup DotCall 7%N "PartialGBM"
       (after [OpLookup DotC 7%N "helper"; OpInit 7%N] (load 7%N (host0 Reject)))).1 ∧
  (host_lookup DotCall 7%N "PartialGBM" (after [] (load 7%N (host0 Reject)))).1 =
    Some (addr_of PartialGBM).
Proof.
  split; [reflexivity|]. split; [reflexivity|].
  apply (lookup_deterministic (host0 Reject) 7%N info0
           [] [OpLookup DotC 7%N "helper"; OpInit 7%N]); reflexivity.
Defined.

(** C9. The hook returns nothing: its result is the same under any two
    hosts and host states, so nothing about the outcome of the
    registration can be read from it. The outcome surfaces through the
    host instead: when the registration succeeds the hook leaves the
    host's diagnostics as they were, and when it fails the host has
    reported an error for the handle by the time the hook is done. *)
Theorem no_failure_in_result
    (H1 H2 : Type) (R1 : HostRuntime H1) (R2 : HostRuntime H2)
    (h1 : H1) (h2 : H2) (dll : DllHandle) (h : host) :
  (run (R_init_pdp dll) h1).1 = (run (R_init_pdp dll) h2).1 ∧
  (run (R_init_pdp dll) h).1 = tt ∧
  ((registration_answer dll h = 1 ∧
    diagnostics (load dll h) = diagnostics h) ∨
   (registration_answer dll h = 0 ∧
    ∃ e more,
      diagnostics (load dll h) = (diagnostics h ++ (dll, e) :: more)%list)).
Proof.
  split; [|split].
  - destruct (run (R_init_pdp dll) h1).1, (run (R_init_pdp dll) h2).1. reflexivity.
  - destruct (run (R_init_pdp dll) h).1. reflexivity.
  - rewrite registration_answer_cases.
    destruct (dlls h !! dll) as [info|] eqn:E.
    + rewrite (load_diagnostics dll h info E).
      destruct (is_registered info && rejects_duplicates (policy h)).
      * right. split; [reflexivity|]. by exists DuplicateRegistration, [].
      * left. split; [reflexivity|]. by rewrite app_nil_r.
    + right. split; [reflexivity|].
      exists InvalidHandle, [(dll, InvalidHandle)].
      by apply load_diagnostics_unknown.
Qed.

(** C10. The only registration the hook makes has [NULL] in its [.C],
    [.Fortran] and [.External] slots; running the hook leaves the tables
    of those three interfaces as they were, and for a freshly loaded
    module no name resolves through any of them afterwards. *)
Theorem call_interface_only
    (H : Type) (R : HostRuntime H) (h0 : H)
    (h : host) (dll : DllHandle) (info : DllInfo)
    (i : interface) (n : string) (ops : list host_op) :
  dlls h !! dll = Some info →
  unregistered info →
  i ≠ DotCall →
  Forall call_only (calls_during (OpInit dll :: ops) h0) ∧
  registered_in i <$> dlls (load dll h) !! dll = Some (registered_in i info) ∧
  dispatch i dll n (after ops (load dll h)) = None.
Proof.
  intros E Hu Hi. split; [|split].
  - apply calls_during_Forall. intros d h'. rewrite trace_R_init_pdp.
    repeat constructor.
  - rewrite (load_lookup dll h info E). destruct i; done.
  - unfold dispatch.
    rewrite (serving dll h info ops E), (hook_effect_unregistered _ _ Hu).
    destruct i; done.
Qed.

Lemma call_interface_only_witness :
  dlls (host0 Replace) !! 7%N = Some info0 ∧
  unregistered info0 ∧
  DotC ≠ DotCall ∧
  Forall call_only (@calls_during unit deaf_runtime [OpInit 7%N; OpInit 7%N] tt) ∧
  registered_in DotC <$> dlls (load 7%N (host0 Replace)) !! 7%N =
    Some (registered_in DotC info0) ∧
  dispatch DotC 7%N "PartialGBM" (after [OpInit 7%N] (load 7%N (host0 Replace))) = None.
Proof.
  split; [reflexivity|]. split; [reflexivity|]. split; [discriminate|].
  apply (call_interface_only unit deaf_runtime tt (host0 Replace) 7%N info0
           DotC "PartialGBM" [OpInit 7%N]); [reflexivity | reflexivity | discriminate].
Defined.

(** * Further properties of the hook

    The properties below hold for every host runtime that meets the
    hypothesis stated with them; none depends on the modelled host. *)

(** The modelled host changes only what it keeps for the module a call
    is made on. *)
Lemma host_step_local (c : host_call) (h : host) (d : DllHandle) :
  handle_of c ≠ d →
  module_view d (host_step c h).2 = module_view d h.
Proof.
  unfold module_view. intros Hne.
  destruct c as [dll cr t fr er | dll v]; cbn in Hne |- *.
  - unfold register_routines.
    repeat (case_match; cbn); try reflexivity.
    by rewrite lookup_insert_ne.
  - unfold use_dynamic_symbols.
    case_match; cbn; [|reflexivity]. by rewrite lookup_insert_ne.
Qed.

Lemma after_cons {H : Type} `{!HostRuntime H} (o : host_op) (ops : list host_op) (h : H) :
  after (o :: ops) h = after ops (op_step h o).
Proof. reflexivity. Qed.

(** X1. The hook does not react to what the host answers: two hosts that
    change state alike, whatever each of them returns, are left in the
    same state by the hook and are sent the same calls. *)
Theorem answers_are_ignored (H : Type) (R1 R2 : HostRuntime H)
    (dll : DllHandle) (h : H) :
  (∀ c h', (@host_step H R1 c h').2 = (@host_step H R2 c h').2) →
  @load H R1 dll h = @load H R2 dll h ∧
  @trace H R1 unit (R_init_pdp dll) h = @trace H R2 unit (R_init_pdp dll) h.
Proof.
  intros Hsame. split.
  - rewrite (@load_unfold H R1), (@load_unfold H R2).
    by rewrite !Hsame.
  - by rewrite (@trace_R_init_pdp H R1), (@trace_R_init_pdp H R2).
Qed.

Lemma answers_are_ignored_witness :
  (∀ c h', (@host_step host host_runtime c h').2 = (@host_step host mute_runtime c h').2) ∧
  (@host_step host host_runtime
     (R_registerRoutines 7%N None (Some CallEntries) None None) (host0 Replace)).1 = 1 ∧
  (@host_step host mute_runtime
     (R_registerRoutines 7%N None (Some CallEntries) None None) (host0 Replace)).1 = 0 ∧
  @load host host_runtime 7%N (host0 Replace) = @load host mute_runtime 7%N (host0 Replace) ∧
  @trace host host_runtime unit (R_init_pdp 7%N) (host0 Replace) =
    @trace host mute_runtime unit (R_init_pdp 7%N) (host0 Replace).
Proof.
  assert (∀ c h', (@host_step host host_runtime c h').2
                  = (@host_step host mute_runtime c h').2) as Hsame.
  { intros [] h'; reflexivity. }
  split; [exact Hsame|]. split; [reflexivity|]. split; [reflexivity|].
  apply (answers_are_ignored host host_runtime mute_runtime 7%N (host0 Replace)).
  exact Hsame.
Defined.

(** X2. The hook touches no module but the one it is given: if a host
    changes, on each call, only what it keeps for the module named in
    the call, and lookups change nothing, then whatever the host keeps
    for module [d] is unchanged by any sequence of lookups and of hook
    invocations on other modules. *)
Theorem other_modules_untouched (H : Type) (R : HostRuntime H)
    (V : Type) (view : DllHandle → H → V)
    (d : DllHandle) (ops : list host_op) (h : H) :
  (∀ c h', handle_of c ≠ d → view d (host_step c h').2 = view d h') →
  (∀ i d' n h', view d (host_lookup i d' n h').2 = view d h') →
  OpInit d ∉ ops →
  view d (after ops h) = view d h.
Proof.
  intros Hstep Hlook. revert h.
  induction ops as [|o ops IH]; intros h Hnot; [reflexivity|].
  apply not_elem_of_cons in Hnot as [Ho Hnot].
  rewrite after_cons, (IH _ Hnot).
  destruct o as [i d' n | d']; cbn [op_step].
  - apply Hlook.
  - assert (d' ≠ d) as Hne by congruence.
    rewrite load_unfold, !Hstep; done.
Qed.

Lemma other_modules_untouched_witness :
  (∀ c h', handle_of c ≠ 7%N →
           module_view 7%N (host_step c h').2 = module_view 7%N h') ∧
  (∀ i d' n h', module_view 7%N (host_lookup i d' n h').2 = module_view 7%N h') ∧
  (OpInit 7%N ∉ [OpInit 9%N; OpLookup DotCall 9%N "other"; OpInit 9%N]) ∧
  module_view 9%N (after [OpInit 9%N] host2) ≠ module_view 9%N host2 ∧
  module_view 7%N
    (after [OpInit 9%N; OpLookup DotCall 9%N "other"; OpInit 9%N] host2) =
    module_view 7%N host2.
Proof.
  assert (OpInit 7%N ∉ [OpInit 9%N; OpLookup DotCall 9%N "other"; OpInit 9%N]) as Hnot.
  { intros Hin. repeat (apply elem_of_cons in Hin as [Hin|Hin]; [discriminate Hin|]).
    by apply not_elem_of_nil in Hin. }
  split; [intros c h'; apply host_step_local|].
  split; [reflexivity|]. split; [exact Hnot|]. split; [discriminate|].
  apply (other_modules_untouched host host_runtime (option DllInfo) module_view
           7%N [OpInit 9%N; OpLookup DotCall 9%N "other"; OpInit 9%N] host2).
  - intros c h'; apply host_step_local.
  - reflexivity.
  - exact Hnot.
Defined.

(** X3. Disabling the fallback is the last thing the hook does: for every
    host in which [R_useDynamicSymbols] sets the switch it is asked to
    set, the fallback of the module is off once the hook has run,
    whatever the registration before it did to the switch and whether or
    not it succeeded. *)
Theorem fallback_disabled_last (H : Type) (R : HostRuntime H)
    (enabled : DllHandle → H → bool) (dll : DllHandle) (h : H) :
  (∀ d v h', enabled d (host_step (R_useDynamicSymbols d v) h').2 = v) →
  enabled dll (load dll h) = false.
Proof. intros Hset. rewrite load_unfold. apply Hset. Qed.

Lemma fallback_disabled_last_witness :
  (∀ d v h', fallback_enabled d
               (@host_step _ switch_runtime (R_useDynamicSymbols d v) h').2 = v) ∧
  fallback_enabled 7%N
    (@host_step _ switch_runtime
       (R_registerRoutines 7%N None (Some CallEntries) None None)
       {[ 7%N := false ]}).2 = true ∧
  fallback_enabled 7%N (@load _ switch_runtime 7%N {[ 7%N := false ]}) = false.
Proof.
  assert (∀ d v h', fallback_enabled d
            (@host_step _ switch_runtime (R_useDynamicSymbols d v) h').2 = v) as Hset.
  { intros d v h'. cbn. unfold fallback_enabled. by rewrite lookup_insert_eq. }
  split; [exact Hset|]. split; [reflexivity|].
  apply (fallback_disabled_last _ switch_runtime fallback_enabled 7%N {[ 7%N := false ]}).
  exact Hset.
Defined.
